(** * scd_qa_core: prompt builders, serving-endpoint client and Streamlit page

    A shallow embedding of [scd_qa_core.py].

    - A Python [str] is a [string]: the sequence of bytes of its UTF-8
      encoding (a lone surrogate, which [encode] refuses, as the three
      bytes [surrogatepass] gives it).  The template's en dash and bullets
      are the three-byte sequences the source file holds.  The encoding is
      self-synchronising, so [needle in haystack] on code points and on
      encoded bytes agree.
    - An f-string is a list of literal chunks and replacement fields,
      formatted left to right and concatenated.
    - Calls are computations in a state-and-exception monad [Py] over the
      [World] the program can change: the elements rendered on the page
      and the requests sent to the serving endpoint.
    - What the libraries do is a parameter: what [WorkspaceClient()] and
      the query raise or answer, what reading an attribute of the response
      and [str(response)] give or raise, and what Streamlit raises when it
      is handed a text computed at run time.
    - A Python dict with string keys is a [gmap string _]. *)

From Stdlib Require Import String Ascii List Bool Arith Lia.
From stdpp Require Import gmap strings.

Open Scope string_scope.

(** * Part I: the program *)

(** ** Python strings *)

Module Str.

(** [needle in hay] of Python, as a proposition. *)
Definition contains (needle hay : string) : Prop :=
  exists pre post, hay = pre +:+ needle +:+ post.

(** [hay.startswith(needle)] *)
Fixpoint startswith (needle hay : string) : bool :=
  match needle, hay with
  | EmptyString, _ => true
  | String a n', String b h' => if Ascii.eqb a b then startswith n' h' else false
  | String _ _, EmptyString => false
  end.

(** [needle in hay], executable: try every offset. *)
Fixpoint containsb (needle hay : string) : bool :=
  startswith needle hay ||
  match hay with
  | EmptyString => false
  | String _ h' => containsb needle h'
  end.

(** [hay.endswith(suffix)] as a proposition. *)
Definition endswith (suffix hay : string) : Prop :=
  exists pre, hay = pre +:+ suffix.

(** [c.lower()] and [s.lower()] on the ASCII letters (bytes of multi-byte
    characters are left alone, none of them being a letter A-Z). *)
Definition lower_ascii (c : ascii) : ascii :=
  let n := nat_of_ascii c in
  if ((65 <=? n) && (n <=? 90))%nat then ascii_of_nat (n + 32) else c.

Fixpoint lower (s : string) : string :=
  match s with
  | EmptyString => EmptyString
  | String c s' => String (lower_ascii c) (lower s')
  end.

(** Containment up to letter case. *)
Definition icontains (needle hay : string) : Prop :=
  contains (lower needle) (lower hay).

(** [s.split(sep)] for a one-character separator. *)
Fixpoint split (sep : ascii) (s : string) : list string :=
  match s with
  | EmptyString => [EmptyString]
  | String c s' =>
      if Ascii.eqb c sep then EmptyString :: split sep s'
      else match split sep s' with
           | [] => [String c EmptyString]
           | w :: ws => String c w :: ws
           end
  end.

(** [s.lstrip(' ')], [s.rstrip(' ')] and [s.strip(' ')]. *)
Fixpoint lstrip (s : string) : string :=
  match s with
  | String c s' => if Ascii.eqb c " "%char then lstrip s' else s
  | EmptyString => EmptyString
  end.

Definition rstrip (s : string) : string := String.rev (lstrip (String.rev s)).

Definition strip (s : string) : string := rstrip (lstrip s).

Definition is_empty (s : string) : bool :=
  match s with EmptyString => true | _ => false end.

(** The cells of a markdown table row: the pieces between the bars,
    stripped, without the empty pieces outside the outer bars. *)
Definition row_cells (row : string) : list string :=
  List.filter (fun c => negb (is_empty c)) (List.map strip (split "|"%char row)).

End Str.

(** ** Formatted string literals *)

(** A chunk of an f-string: literal text, or a replacement field [{v}]
    holding the value of the expression.  Every value here is a [str], and
    [format(v, '')] of a [str] is [v] itself. *)
Inductive fpart : Type :=
| Lit (text : string)
| Repl (v : string).

Definition part_text (p : fpart) : string :=
  match p with
  | Lit text => text
  | Repl v => v
  end.

Fixpoint fstring (parts : list fpart) : string :=
  match parts with
  | [] => ""
  | p :: rest => part_text p +:+ fstring rest
  end.

(** ** Exceptions and the world *)

(** A raised exception: its class, whether that class derives from
    [Exception] (KeyboardInterrupt, SystemExit and GeneratorExit derive from
    [BaseException] only), and [str(e)]. *)
Record PyExc : Type := {
  exc_class : string;
  exc_is_Exception : bool;
  exc_str : string
}.

Inductive Outcome (A : Type) : Type :=
| Return (a : A)
| Raise (e : PyExc).

Arguments Return {A} a.
Arguments Raise {A} e.

(** What [st.*] calls put on the page, in order.  Layout containers
    (the sidebar, the columns' bodies) do not change what is rendered and
    are left out. *)
Inductive Element : Type :=
| Title (body : string)
| Caption (body : string)
| Header (body : string)
| Subheader (body : string)
| Info (body : string)
| Markdown (body : string) (unsafe_allow_html : bool)
| Columns (n : nat)
| Radio (label : string) (options : list string)
| TextInput (label value : string)
| TextArea (label : string) (height : nat)
| Button (label : string)
| Spinner (text : string)
| Success (body : string)
| Code (body language : string)
| Error (body : string).

(** One [serving_endpoints.query] call: the endpoint name and the
    [inputs] list of message dicts. *)
Record Request : Type := {
  req_name : string;
  req_inputs : list (gmap string string)
}.

Record World : Type := {
  page : list Element;
  sent : list Request
}.

Definition Py (A : Type) : Type := World -> Outcome A * World.

Definition ret {A} (a : A) : Py A := fun w => (Return a, w).

Definition bind {A B} (c : Py A) (k : A -> Py B) : Py B :=
  fun w =>
    match c w with
    | (Return a, w') => k a w'
    | (Raise e, w') => (Raise e, w')
    end.

Declare Scope py_scope.
Delimit Scope py_scope with py.
Bind Scope py_scope with Py.

Notation "x <- c1 ;; c2" := (bind c1 (fun x => c2))
  (at level 100, c1 at next level, right associativity) : py_scope.
Notation "c1 ;; c2" := (bind c1 (fun _ => c2))
  (at level 100, right associativity) : py_scope.

Open Scope py_scope.

(** [try: body / except: handler]: a bare [except] catches everything. *)
Definition try_except {A} (body : Py A) (handler : Py A) : Py A :=
  fun w =>
    match body w with
    | (Return a, w') => (Return a, w')
    | (Raise _, w') => handler w'
    end.

(** [try: body / except Exception as e: handler]: an exception whose class
    does not derive from [Exception] passes through. *)
Definition try_except_Exception {A} (body : Py A) (handler : PyExc -> Py A) : Py A :=
  fun w =>
    match body w with
    | (Return a, w') => (Return a, w')
    | (Raise e, w') =>
        if exc_is_Exception e then handler e w' else (Raise e, w')
    end.

(** ** CONFIG *)

Definition MODEL_ENDPOINT_NAME : string := "deepseek-scd-qa".

(** ** The Databricks SDK, as far as the program uses it *)

(** The object [serving_endpoints.query] returns: its class name, what
    reading each attribute it has yields (a value, or the exception a
    property raises), and what [str(response)] yields (the rendering, or
    the exception its [__str__] raises). *)
Record Response : Type := {
  resp_class : string;
  resp_attrs : gmap string (Outcome string);
  resp_str : Outcome string
}.

Definition AttributeError (cls attr : string) : PyExc :=
  {| exc_class := "AttributeError";
     exc_is_Exception := true;
     exc_str := "'" +:+ cls +:+ "' object has no attribute '" +:+ attr +:+ "'" |}.

(** [response.<attr>] *)
Definition getattr (response : Response) (attr : string) : Py string :=
  fun w =>
    (match resp_attrs response !! attr with
     | Some o => o
     | None => Raise (AttributeError (resp_class response) attr)
     end, w).

(** [str(response)] *)
Definition py_str (response : Response) : Py string :=
  fun w => (resp_str response, w).

(** The platform as the process sees it: [client_error] is what
    [WorkspaceClient()] raises when host or token do not resolve,
    [endpoint] is what a query of the named endpoint answers or raises, and
    [undrawable] is what the Streamlit runtime raises, if anything, when
    the script hands it an element holding a text computed at run time (a
    [UnicodeEncodeError] for a text that does not encode, say). *)
Record Databricks : Type := {
  client_error : option PyExc;
  endpoint : string -> list (gmap string string) -> Outcome Response;
  undrawable : Element -> option PyExc
}.

Definition WorkspaceClient (dbx : Databricks) : Py unit :=
  fun w =>
    (match client_error dbx with
     | None => Return tt
     | Some e => Raise e
     end, w).

Definition serving_endpoints_query (dbx : Databricks)
    (name : string) (inputs : list (gmap string string)) : Py Response :=
  fun w =>
    (endpoint dbx name inputs,
     {| page := page w;
        sent := sent w ++ [ {| req_name := name; req_inputs := inputs |} ] |}).

(** ** DATABRICKS MODEL SERVING CALL *)

Definition call_databricks_llm (dbx : Databricks) (prompt : string) : Py string :=
  WorkspaceClient dbx ;;
  response <- serving_endpoints_query dbx MODEL_ENDPOINT_NAME
                [ {[ "role" := "user"; "content" := prompt ]} ] ;;
  try_except (getattr response "output_text") (py_str response).

(** ** PROMPT BUILDERS *)

Definition type1_fstring
    (source_table target_table business_keys attribute_columns
     additional_rules : string) : list fpart :=
  [ Lit "
You are a senior Data QA Engineer.

Generate detailed QA test cases to validate a Slowly Changing Dimension Type 1 (SCD1)
load between the following tables.

Source table: ";
    Repl source_table;
    Lit "
Target table: ";
    Repl target_table;
    Lit "
Business key columns: ";
    Repl business_keys;
    Lit "
Attribute columns (overwritten on change): ";
    Repl attribute_columns;
    Lit "

Additional rules:
";
    Repl additional_rules;
    Lit "

Requirements:
- Assume SCD1 implemented in PySpark + Delta on Databricks.
- Generate 10–15 test cases.
- Include positive + negative scenarios.
- Include:
  • Initial load
  • Incremental load
  • Updates
  • No-change rows
  • Duplicate keys
  • Nulls
  • Data type issues

Output format (markdown table):

| Test Case ID | Scenario | Preconditions | Input Data Setup | Steps | Expected Result |
" ].

Definition build_scd_type1_prompt
    (source_table target_table business_keys attribute_columns
     additional_rules : string) : Py string :=
  ret (fstring (type1_fstring source_table target_table business_keys
                  attribute_columns additional_rules)).

Definition type2_fstring
    (source_table target_table business_keys attribute_columns
     eff_from_col eff_to_col current_flag_col version_col
     additional_rules : string) : list fpart :=
  [ Lit "
You are a senior Data QA Engineer.

Generate detailed QA test cases to validate an SCD Type 2 load.

Source: ";
    Repl source_table;
    Lit "
Target: ";
    Repl target_table;
    Lit "
Business Keys: ";
    Repl business_keys;
    Lit "
Tracked Columns: ";
    Repl attribute_columns;
    Lit "

SCD2 Metadata:
- Effective From: ";
    Repl eff_from_col;
    Lit "
- Effective To: ";
    Repl eff_to_col;
    Lit "
- Current Flag: ";
    Repl current_flag_col;
    Lit "
- Version Column: ";
    Repl version_col;
    Lit "

Additional Rules:
";
    Repl additional_rules;
    Lit "

Requirements:
- Assume PySpark + Delta Lake on Databricks
- Generate 12–18 cases
- Cover:
  • Initial load
  • First insert
  • Attribute change -> close old + open new
  • Multiple historical changes
  • Late-arriving data
  • Overlapping ranges
  • Current flag issues
  • Duplicate keys
  • Invalid effective dates

Output format (markdown table):

| Test Case ID | Scenario | Preconditions | Input Data Setup | Steps | Expected Result |
" ].

Definition build_scd_type2_prompt
    (source_table target_table business_keys attribute_columns
     eff_from_col eff_to_col current_flag_col version_col
     additional_rules : string) : Py string :=
  ret (fstring (type2_fstring source_table target_table business_keys
                  attribute_columns eff_from_col eff_to_col current_flag_col
                  version_col additional_rules)).

(** ** STREAMLIT UI *)

(** What the operator did before this run of the script: the value typed
    or chosen in each widget, by the widget's label, and the buttons
    clicked.  A widget left alone has no entry and gives its default. *)
Record Session : Type := {
  entered : gmap string string;
  clicked : gset string
}.

Definition render (el : Element) : Py unit :=
  fun w => (Return tt, {| page := page w ++ [el]; sent := sent w |}).

(** [st.radio] gives one of its options: the chosen one, else the first. *)
Definition radio_value (ui : Session) (label : string) (options : list string) : string :=
  match entered ui !! label with
  | Some v => if bool_decide (v ∈ options) then v else hd "" options
  | None => hd "" options
  end.

Definition text_value (ui : Session) (label value : string) : string :=
  default value (entered ui !! label).

Definition st_title (body : string) : Py unit := render (Title body).
Definition st_caption (body : string) : Py unit := render (Caption body).
Definition st_header (body : string) : Py unit := render (Header body).
Definition st_subheader (body : string) : Py unit := render (Subheader body).
Definition st_info (body : string) : Py unit := render (Info body).
Definition st_success (body : string) : Py unit := render (Success body).
Definition st_spinner (text : string) : Py unit := render (Spinner text).
Definition st_columns (n : nat) : Py unit := render (Columns n).

(** [st.code] and [st.error] are handed texts computed at run time, the
    result and the exception's description, which the runtime may refuse:
    then the call raises and nothing is drawn.  The other calls are handed
    literals of the script. *)
Definition draw (dbx : Databricks) (el : Element) : Py unit :=
  fun w =>
    match undrawable dbx el with
    | Some e => (Raise e, w)
    | None => render el w
    end.

Definition st_code (dbx : Databricks) (body language : string) : Py unit :=
  draw dbx (Code body language).

Definition st_error (dbx : Databricks) (body : string) : Py unit :=
  draw dbx (Error body).

Definition st_markdown (body : string) (unsafe_allow_html : bool) : Py unit :=
  render (Markdown body unsafe_allow_html).

Definition st_radio (ui : Session) (label : string) (options : list string) : Py string :=
  render (Radio label options) ;; ret (radio_value ui label options).

Definition st_text_input (ui : Session) (label value : string) : Py string :=
  render (TextInput label value) ;; ret (text_value ui label value).

Definition st_text_area (ui : Session) (label : string) (height : nat) : Py string :=
  render (TextArea label height) ;; ret (text_value ui label "").

Definition st_button (ui : Session) (label : string) : Py bool :=
  render (Button label) ;; ret (bool_decide (label ∈ clicked ui)).

Definition run_app (ui : Session) (dbx : Databricks) : Py unit :=
  st_title "🧪 SCD Test Case Generator (Databricks LLM)" ;;
  st_caption "Uses Databricks Model Serving + Workspace Token (no OpenAI)." ;;
  st_header "⚙️ Settings" ;;
  scd_type <- st_radio ui "Select SCD Type" ["SCD Type 1"; "SCD Type 2"] ;;
  st_info (fstring [Lit "Using Databricks Serving Endpoint: `";
                    Repl MODEL_ENDPOINT_NAME; Lit "`"]) ;;
  st_subheader "🔢 Table & Column Metadata" ;;
  st_columns 2 ;;
  source_table <- st_text_input ui "Source Table" "src_customer_dim" ;;
  target_table <- st_text_input ui "Target Table" "dim_customer" ;;
  business_keys <- st_text_input ui "Business Keys (comma separated)" "customer_id" ;;
  attribute_columns <- st_text_input ui "Tracked / Overwritten Columns" "name,status,type" ;;
  additional_rules <- st_text_area ui "Additional Rules (optional)" 100 ;;
  meta <-
    (if String.eqb scd_type "SCD Type 2" then
       st_subheader "⏳ SCD2 Metadata Columns" ;;
       st_columns 2 ;;
       eff_from_col <- st_text_input ui "Effective From" "eff_from_dt" ;;
       current_flag_col <- st_text_input ui "Current Flag" "is_current" ;;
       eff_to_col <- st_text_input ui "Effective To" "eff_to_dt" ;;
       version_col <- st_text_input ui "Version Column" "version_num" ;;
       ret (eff_from_col, eff_to_col, current_flag_col, version_col)
     else ret ("", "", "", "")) ;;
  let '(eff_from_col, eff_to_col, current_flag_col, version_col) := meta in
  st_markdown "---" false ;;
  generate <- st_button ui "⚡ Generate Test Cases" ;;
  (if generate : bool then
     st_spinner "Calling Databricks LLM…" ;;
     prompt <-
       (if String.eqb scd_type "SCD Type 1" then
          build_scd_type1_prompt source_table target_table business_keys
            attribute_columns additional_rules
        else
          build_scd_type2_prompt source_table target_table business_keys
            attribute_columns eff_from_col eff_to_col current_flag_col
            version_col additional_rules) ;;
     try_except_Exception
       (result <- call_databricks_llm dbx prompt ;;
        st_success "Generated!" ;;
        st_code dbx result "markdown")
       (fun e => st_error dbx (fstring [Lit "Error: "; Repl (exc_str e)]))
   else ret tt) ;;
  st_markdown "<hr><p style='text-align:center;color:gray'>Built on Databricks LLM</p>" true.

(** The labels the page uses. *)
Definition GENERATE : string := "⚡ Generate Test Cases".

Definition SCD2_LABELS : list string :=
  ["Effective From"; "Effective To"; "Current Flag"; "Version Column"].

(** * Part II: the vocabulary of the statements *)

(** The prompt [run_app] builds from the widgets' values when the button
    is clicked (see [run_app_unfold]). *)
Definition form_prompt (ui : Session) : string :=
  let scd_type := radio_value ui "Select SCD Type" ["SCD Type 1"; "SCD Type 2"] in
  let source_table := text_value ui "Source Table" "src_customer_dim" in
  let target_table := text_value ui "Target Table" "dim_customer" in
  let business_keys := text_value ui "Business Keys (comma separated)" "customer_id" in
  let attribute_columns := text_value ui "Tracked / Overwritten Columns" "name,status,type" in
  let additional_rules := text_value ui "Additional Rules (optional)" "" in
  let '(eff_from_col, eff_to_col, current_flag_col, version_col) :=
    if String.eqb scd_type "SCD Type 2" then
      (text_value ui "Effective From" "eff_from_dt",
       text_value ui "Effective To" "eff_to_dt",
       text_value ui "Current Flag" "is_current",
       text_value ui "Version Column" "version_num")
    else ("", "", "", "") in
  if String.eqb scd_type "SCD Type 1" then
    fstring (type1_fstring source_table target_table business_keys
               attribute_columns additional_rules)
  else
    fstring (type2_fstring source_table target_table business_keys
               attribute_columns eff_from_col eff_to_col current_flag_col
               version_col additional_rules).

(** What [run_app] renders before it looks at the button. *)
Definition form_elements (ui : Session) : list Element :=
  [ Title "🧪 SCD Test Case Generator (Databricks LLM)";
    Caption "Uses Databricks Model Serving + Workspace Token (no OpenAI).";
    Header "⚙️ Settings";
    Radio "Select SCD Type" ["SCD Type 1"; "SCD Type 2"];
    Info (fstring [Lit "Using Databricks Serving Endpoint: `";
                   Repl MODEL_ENDPOINT_NAME; Lit "`"]);
    Subheader "🔢 Table & Column Metadata";
    Columns 2;
    TextInput "Source Table" "src_customer_dim";
    TextInput "Target Table" "dim_customer";
    TextInput "Business Keys (comma separated)" "customer_id";
    TextInput "Tracked / Overwritten Columns" "name,status,type";
    TextArea "Additional Rules (optional)" 100 ]
  ++ (if String.eqb (radio_value ui "Select SCD Type" ["SCD Type 1"; "SCD Type 2"])
                    "SCD Type 2"
      then [ Subheader "⏳ SCD2 Metadata Columns";
             Columns 2;
             TextInput "Effective From" "eff_from_dt";
             TextInput "Current Flag" "is_current";
             TextInput "Effective To" "eff_to_dt";
             TextInput "Version Column" "version_num" ]
      else [])
  ++ [ Markdown "---" false; Button GENERATE ].

Definition FOOTER : Element :=
  Markdown "<hr><p style='text-align:center;color:gray'>Built on Databricks LLM</p>" true.

(** What the [except Exception] clause and the footer make of an exception
    [e] raised in the [try], from the world [w] it was raised in. *)
Definition caught (dbx : Databricks) (e : PyExc) (w : World) : Outcome unit * World :=
  if exc_is_Exception e then
    match undrawable dbx (Error (fstring [Lit "Error: "; Repl (exc_str e)])) with
    | None =>
        (Return tt,
         {| page := page w ++ [Error (fstring [Lit "Error: "; Repl (exc_str e)]); FOOTER];
            sent := sent w |})
    | Some e' => (Raise e', w)
    end
  else (Raise e, w).

(** A success result on the page: the banner or the code block. *)
Definition is_result (el : Element) : bool :=
  match el with
  | Success _ | Code _ _ => true
  | _ => false
  end.

Definition is_error (el : Element) : bool :=
  match el with
  | Error _ => true
  | _ => false
  end.

(** The message dict of the request. *)
Definition user_message (prompt : string) : gmap string string :=
  {[ "role" := "user"; "content" := prompt ]}.

Definition query_request (prompt : string) : Request :=
  {| req_name := MODEL_ENDPOINT_NAME; req_inputs := [user_message prompt] |}.

(** A call that gives the same value from every world and leaves the
    world as it found it. *)
Definition pure_returns {A} (c : Py A) (a : A) : Prop :=
  forall w, c w = (Return a, w).

(** Some literal chunk of the f-string holds [needle]. *)
Definition literals_contain (needle : string) (parts : list fpart) : bool :=
  existsb (fun p => match p with
                    | Lit text => Str.containsb needle text
                    | Repl _ => false
                    end) parts.

(** The f-string ends in a literal chunk that ends in [suffix]. *)
Definition last_literal_endswith (suffix : string) (parts : list fpart) : bool :=
  match List.last parts (Repl "") with
  | Lit text =>
      String.eqb text
        (String.substring 0 (String.length text - String.length suffix) text
           +:+ suffix)
  | Repl _ => false
  end.

Definition nl : string := String (ascii_of_nat 10) "".

(** A line of the bullet list of a template. *)
Definition bullet (name : string) : string :=
  fstring [Lit "  • "; Repl name; Lit nl].

(** Some literal chunk holds [needle] up to letter case. *)
Definition literals_icontain (needle : string) (parts : list fpart) : bool :=
  existsb (fun p => match p with
                    | Lit text => Str.containsb (Str.lower needle) (Str.lower text)
                    | Repl _ => false
                    end) parts.

(** The scenario categories of a Type 1 load under the names the
    specification lists them by. *)
Definition TYPE1_LISTED : list string :=
  ["initial load"; "incremental load"; "updates"; "no-change rows";
   "duplicate keys"; "nulls"; "data-type issues"].

(** The same categories as the bullets of the template word them. *)
Definition TYPE1_BULLETS : list string :=
  ["Initial load"; "Incremental load"; "Updates"; "No-change rows";
   "Duplicate keys"; "Nulls"; "Data type issues"].

(** The Type 1 prompt holds its four fields verbatim and every listed
    name; [holds] says how a name is held: verbatim ([Str.contains]) or, at
    the most lenient, up to letter case ([Str.icontains]). *)
Definition type1_prompt_as_listed (holds : string -> string -> Prop)
    (source_table target_table business_keys attribute_columns
     additional_rules : string) : Prop :=
  exists s,
    pure_returns (build_scd_type1_prompt source_table target_table
                    business_keys attribute_columns additional_rules) s /\
    Str.contains source_table s /\ Str.contains target_table s /\
    Str.contains business_keys s /\ Str.contains attribute_columns s /\
    Forall (fun name => holds name s) TYPE1_LISTED.

(** The scenario categories of a Type 2 load under the names the
    specification lists them by. *)
Definition TYPE2_LISTED : list string :=
  ["initial load"; "first insert"; "attribute change (close-old/open-new)";
   "multiple historical changes"; "late-arriving data";
   "overlapping date ranges"; "current-flag inconsistencies";
   "duplicate keys"; "invalid effective-date values"].

(** The same categories as the bullets of the template word them. *)
Definition TYPE2_BULLETS : list string :=
  ["Initial load"; "First insert"; "Attribute change -> close old + open new";
   "Multiple historical changes"; "Late-arriving data"; "Overlapping ranges";
   "Current flag issues"; "Duplicate keys"; "Invalid effective dates"].

(** The Type 2 prompt holds its eight fields verbatim and every listed
    name, held as [holds] says. *)
Definition type2_prompt_as_listed (holds : string -> string -> Prop)
    (source_table target_table business_keys attribute_columns
     eff_from_col eff_to_col current_flag_col version_col
     additional_rules : string) : Prop :=
  exists s,
    pure_returns (build_scd_type2_prompt source_table target_table
                    business_keys attribute_columns eff_from_col eff_to_col
                    current_flag_col version_col additional_rules) s /\
    Str.contains source_table s /\ Str.contains target_table s /\
    Str.contains business_keys s /\ Str.contains attribute_columns s /\
    Str.contains eff_from_col s /\ Str.contains eff_to_col s /\
    Str.contains current_flag_col s /\ Str.contains version_col s /\
    Forall (fun name => holds name s) TYPE2_LISTED.

(** The header row both templates end in. *)
Definition TABLE_HEADER : string :=
  "| Test Case ID | Scenario | Preconditions | Input Data Setup | Steps | Expected Result |".

(** ** Inputs the statements are tried on *)

Definition empty_world : World := {| page := []; sent := [] |}.

(** An SDK response object that has no [output_text] attribute, and a
    workspace whose endpoint answers with it. *)
Definition plain_response : Response :=
  {| resp_class := "QueryEndpointResponse";
     resp_attrs := ∅;
     resp_str := Return "QueryEndpointResponse(choices=None, predictions=None)" |}.

Definition dbx_plain : Databricks :=
  {| client_error := None;
     endpoint := fun _ _ => Return plain_response;
     undrawable := fun _ => None |}.



(** The form left at its defaults, the button clicked. *)
Definition ui_clicked : Session :=
  {| entered := ∅; clicked := {[ GENERATE ]} |}.

(** Ctrl-C while the query blocks: [KeyboardInterrupt] derives from
    [BaseException], not from [Exception]. *)
Definition KeyboardInterrupt : PyExc :=
  {| exc_class := "KeyboardInterrupt"; exc_is_Exception := false; exc_str := "" |}.

Definition dbx_interrupted : Databricks :=
  {| client_error := None;
     endpoint := fun _ _ => Raise KeyboardInterrupt;
     undrawable := fun _ => None |}.

(** A transport error of the SDK. *)
Definition connection_refused : PyExc :=
  {| exc_class := "ConnectionError";
     exc_is_Exception := true;
     exc_str := "connection refused" |}.

Definition dbx_down : Databricks :=
  {| client_error := None;
     endpoint := fun _ _ => Raise connection_refused;
     undrawable := fun _ => None |}.

(** Two sessions of the Type 1 flow that differ in the SCD2 fields only. *)
Definition ui_type1_a : Session :=
  {| entered := {[ "Effective From" := "valid_from" ]};
     clicked := {[ GENERATE ]} |}.

Definition ui_type1_b : Session :=
  {| entered := {[ "Effective From" := "start_dt"; "Version Column" := "rev" ]};
     clicked := {[ GENERATE ]} |}.

(** ** Further vocabulary *)

Definition is_spinner (el : Element) : bool :=
  match el with
  | Spinner _ => true
  | _ => false
  end.

(** An input widget, as opposed to text put on the page. *)
Definition is_widget (el : Element) : bool :=
  match el with
  | Radio _ _ | TextInput _ _ | TextArea _ _ | Button _ => true
  | _ => false
  end.

(** How both templates open. *)
Definition ROLE_OPENING : string :=
  fstring [Lit nl; Lit "You are a senior Data QA Engineer."; Lit nl].

(** The literal text the Type 1 template puts between the source table
    and the target table. *)
Definition TARGET_TABLE_LABEL : string :=
  fstring [Lit nl; Lit "Target table: "].

(** A chat response that has an [output_text], and a workspace whose
    endpoint answers with it. *)
Definition chat_response : Response :=
  {| resp_class := "ChatResponse";
     resp_attrs := {[ "output_text" := Return "| TC01 | Initial load |" ]};
     resp_str := Return "ChatResponse(output_text='| TC01 | Initial load |')" |}.

Definition dbx_chat : Databricks :=
  {| client_error := None;
     endpoint := fun _ _ => Return chat_response;
     undrawable := fun _ => None |}.

(** The form untouched and the button not clicked. *)
Definition ui_idle : Session := {| entered := ∅; clicked := ∅ |}.

(** SCD Type 2 chosen, one metadata field typed, the button clicked. *)
Definition ui_type2 : Session :=
  {| entered := {[ "Select SCD Type" := "SCD Type 2";
                   "Effective From" := "valid_from" ]};
     clicked := {[ GENERATE ]} |}.

(** What Streamlit raises for a text that does not encode. *)
Definition unicode_encode_error : PyExc :=
  {| exc_class := "UnicodeEncodeError";
     exc_is_Exception := true;
     exc_str := "'utf-8' codec can't encode character '\ud800' in position 11: surrogates not allowed" |}.

(** A platform whose endpoint answers, but whose code block is refused. *)
Definition dbx_code_refused : Databricks :=
  {| client_error := None;
     endpoint := fun _ _ => Return chat_response;
     undrawable := fun el => match el with
                             | Code _ _ => Some unicode_encode_error
                             | _ => None
                             end |}.

(** A platform whose endpoint is down and whose error display is refused. *)
Definition dbx_error_refused : Databricks :=
  {| client_error := None;
     endpoint := fun _ _ => Raise connection_refused;
     undrawable := fun el => match el with
                             | Error _ => Some unicode_encode_error
                             | _ => None
                             end |}.

(** * Part III: properties *)

(** ** Strings *)

Module StrFacts.

Import Str.

Lemma app_nil_l (s : string) : "" +:+ s = s.
Proof. reflexivity. Qed.

Lemma app_cons (c : ascii) (a b : string) : String c a +:+ b = String c (a +:+ b).
Proof. reflexivity. Qed.

Lemma app_nil_r (s : string) : s +:+ "" = s.
Proof.
  induction s as [|c s IH]; [reflexivity | now rewrite app_cons, IH].
Qed.

Lemma app_assoc (a b c : string) : (a +:+ b) +:+ c = a +:+ (b +:+ c).
Proof.
  induction a as [|x a IH]; [reflexivity | now rewrite !app_cons, IH].
Qed.

Lemma startswith_spec (n h : string) :
  startswith n h = true <-> exists post, h = n +:+ post.
Proof.
  revert h; induction n as [|a n IH]; intros h; simpl.
  - split; [intros _; exists h; reflexivity | reflexivity].
  - destruct h as [|b h].
    + split; [discriminate | intros [post H]; discriminate].
    + destruct (Ascii.eqb_spec a b) as [->|Hne].
      * rewrite IH. split; intros [post H]; exists post.
        -- now rewrite app_cons, H.
        -- rewrite app_cons in H. now inversion H.
      * split; [discriminate |].
        intros [post H]. rewrite app_cons in H. injection H as Hab _. congruence.
Qed.

Lemma containsb_spec (n h : string) : containsb n h = true <-> contains n h.
Proof.
  induction h as [|b h IH]; simpl.
  - rewrite orb_false_r, startswith_spec. split.
    + intros [post H]. exists "", post. exact H.
    + intros [pre [post H]]. destruct pre; [exists post; exact H | discriminate].
  - rewrite orb_true_iff, startswith_spec, IH. split.
    + intros [[post H] | [pre [post H]]].
      * exists "", post. exact H.
      * exists (String b pre), post. now rewrite app_cons, H.
    + intros [pre [post H]]. destruct pre as [|x pre].
      * left. exists post. exact H.
      * right. rewrite app_cons in H. inversion H. exists pre, post. reflexivity.
Qed.

Lemma contains_refl (s : string) : contains s s.
Proof. exists "", "". now rewrite app_nil_l, app_nil_r. Qed.

Lemma contains_app_l (n a b : string) : contains n a -> contains n (a +:+ b).
Proof.
  intros [p [q ->]]. exists p, (q +:+ b). now rewrite !app_assoc.
Qed.

Lemma contains_app_r (n a b : string) : contains n b -> contains n (a +:+ b).
Proof.
  intros [p [q ->]]. exists (a +:+ p), q. now rewrite !app_assoc.
Qed.

Lemma lower_app (a b : string) : lower (a +:+ b) = lower a +:+ lower b.
Proof.
  induction a as [|x a IH]; [reflexivity |].
  rewrite app_cons. simpl. now rewrite app_cons, IH.
Qed.

Lemma contains_lower (n h : string) : contains n h -> contains (lower n) (lower h).
Proof.
  intros [p [q ->]]. exists (lower p), (lower q). now rewrite !lower_app.
Qed.

End StrFacts.

(** ** Formatted string literals *)

Lemma fstring_app (ps qs : list fpart) :
  fstring (ps ++ qs) = fstring ps +:+ fstring qs.
Proof.
  induction ps as [|p ps IH]; simpl; [reflexivity |].
  now rewrite IH, StrFacts.app_assoc.
Qed.

(** Whatever a chunk holds, the formatted string holds: a replacement
    field puts its value in unchanged. *)
Lemma fstring_contains (needle : string) (p : fpart) (parts : list fpart) :
  In p parts -> Str.contains needle (part_text p) ->
  Str.contains needle (fstring parts).
Proof.
  induction parts as [|q parts IH]; simpl; [intros [] |].
  intros [-> | Hin] Hc.
  - now apply StrFacts.contains_app_l.
  - apply StrFacts.contains_app_r. now apply IH.
Qed.

Lemma fstring_field (v : string) (parts : list fpart) :
  In (Repl v) parts -> Str.contains v (fstring parts).
Proof.
  intros Hin. apply (fstring_contains v (Repl v)); [exact Hin |].
  apply StrFacts.contains_refl.
Qed.

Lemma fstring_literal (needle text : string) (parts : list fpart) :
  In (Lit text) parts -> Str.containsb needle text = true ->
  Str.contains needle (fstring parts).
Proof.
  intros Hin Hb. apply (fstring_contains needle (Lit text)); [exact Hin |].
  now apply StrFacts.containsb_spec.
Qed.

Lemma fstring_endswith (text : string) (parts : list fpart) (suffix : string) :
  (exists pre, text = pre +:+ suffix) ->
  Str.endswith suffix (fstring (parts ++ [Lit text])).
Proof.
  intros [pre ->]. exists (fstring parts +:+ pre).
  rewrite fstring_app. simpl. now rewrite StrFacts.app_nil_r, StrFacts.app_assoc.
Qed.

Lemma fstring_lower_contains (needle : string) (p : fpart) (parts : list fpart) :
  In p parts -> Str.contains needle (Str.lower (part_text p)) ->
  Str.contains needle (Str.lower (fstring parts)).
Proof.
  induction parts as [|q parts IH]; simpl; [intros [] |].
  rewrite StrFacts.lower_app. intros [-> | Hin] Hc.
  - now apply StrFacts.contains_app_l.
  - apply StrFacts.contains_app_r. now apply IH.
Qed.

Lemma literals_contain_spec (needle : string) (parts : list fpart) :
  literals_contain needle parts = true -> Str.contains needle (fstring parts).
Proof.
  unfold literals_contain. rewrite existsb_exists.
  intros [[text | v] [Hin Hb]]; [| discriminate].
  now apply (fstring_literal needle text).
Qed.

Lemma literals_icontain_spec (needle : string) (parts : list fpart) :
  literals_icontain needle parts = true -> Str.icontains needle (fstring parts).
Proof.
  unfold literals_icontain, Str.icontains. rewrite existsb_exists.
  intros [[text | v] [Hin Hb]]; [| discriminate].
  apply (fstring_lower_contains _ (Lit text)); [exact Hin |].
  now apply StrFacts.containsb_spec.
Qed.

Lemma last_literal_endswith_spec (suffix : string) (parts : list fpart) :
  last_literal_endswith suffix parts = true -> Str.endswith suffix (fstring parts).
Proof.
  unfold last_literal_endswith.
  destruct parts as [|p parts]; [discriminate |].
  destruct (@exists_last _ (p :: parts)) as [init [q ->]]; [discriminate |].
  rewrite last_last. destruct q as [text | v]; [| discriminate].
  intros Hb. apply String.eqb_eq in Hb.
  apply fstring_endswith. eexists. exact Hb.
Qed.

(** ** The monad and the widgets *)

Lemma pure_returns_inj {A} (c : Py A) (a b : A) :
  pure_returns c a -> pure_returns c b -> a = b.
Proof.
  intros Ha Hb. pose proof (Ha {| page := []; sent := [] |}) as E.
  rewrite Hb in E. now inversion E.
Qed.

Lemma radio_value_in (ui : Session) (label first : string) (others : list string) :
  radio_value ui label (first :: others) ∈ first :: others.
Proof.
  unfold radio_value. destruct (entered ui !! label) as [v|]; simpl.
  - case_bool_decide; [assumption | apply list_elem_of_here].
  - apply list_elem_of_here.
Qed.

(** ** The serving-endpoint call *)

Section Call.

Variables (dbx : Databricks) (prompt : string).

Lemma call_databricks_llm_unfold (w : World) :
  call_databricks_llm dbx prompt w =
  match client_error dbx with
  | Some e => (Raise e, w)
  | None =>
      let w' := {| page := page w; sent := sent w ++ [query_request prompt] |} in
      match endpoint dbx MODEL_ENDPOINT_NAME [user_message prompt] with
      | Raise e => (Raise e, w')
      | Return response =>
          (match resp_attrs response !! "output_text" with
           | Some (Return text) => Return text
           | _ => resp_str response
           end, w')
      end
  end.
Proof.
  unfold call_databricks_llm, bind, WorkspaceClient, serving_endpoints_query,
    try_except, getattr, py_str, ret, query_request, user_message.
  destruct (client_error dbx) as [e|]; [reflexivity |].
  destruct (endpoint dbx _ _) as [response | e]; [| reflexivity].
  cbv zeta.
  destruct (resp_attrs response !! "output_text") as [[text | e] |]; reflexivity.
Qed.

Lemma call_databricks_llm_page (w : World) :
  page (snd (call_databricks_llm dbx prompt w)) = page w.
Proof.
  rewrite call_databricks_llm_unfold.
  destruct (client_error dbx); [reflexivity |].
  cbv zeta. destruct (endpoint dbx _ _); reflexivity.
Qed.

(** The outcome of the call does not depend on the world it starts in. *)
Lemma call_databricks_llm_outcome (w1 w2 : World) :
  fst (call_databricks_llm dbx prompt w1) = fst (call_databricks_llm dbx prompt w2).
Proof.
  rewrite !call_databricks_llm_unfold.
  destruct (client_error dbx); [reflexivity |].
  cbv zeta. destruct (endpoint dbx _ _); reflexivity.
Qed.

(** The path the fallback stands in for: an [output_text] that is there
    is what the call returns. *)
Lemma call_returns_output_text (w : World) (response : Response) (text : string) :
  client_error dbx = None ->
  endpoint dbx MODEL_ENDPOINT_NAME [user_message prompt] = Return response ->
  resp_attrs response !! "output_text" = Some (Return text) ->
  fst (call_databricks_llm dbx prompt w) = Return text.
Proof.
  intros Hclient Hquery Hattr.
  rewrite call_databricks_llm_unfold, Hclient. cbv zeta.
  now rewrite Hquery, Hattr.
Qed.


(** C8.  Whatever the prompt, the call sends nothing when
    [WorkspaceClient()] raises, and else exactly one request: to the
    configured endpoint, with an [inputs] list of exactly one message,
    whose only keys are role and content, role being "user" and content
    the prompt as it was given. *)
Theorem call_request_shape (w : World) :
  exists m : gmap string string,
    sent (snd (call_databricks_llm dbx prompt w)) =
      (sent w ++ match client_error dbx with
                 | None => [ {| req_name := "deepseek-scd-qa"; req_inputs := [m] |} ]
                 | Some _ => []
                 end)%list /\
    m !! "role" = Some "user" /\
    m !! "content" = Some prompt /\
    dom m = {[ "role"; "content" ]}.
Proof.
  exists (user_message prompt). split; [| split; [| split]].
  - rewrite call_databricks_llm_unfold.
    destruct (client_error dbx) as [e|].
    + simpl. now rewrite List.app_nil_r.
    + cbv zeta. destruct (endpoint dbx _ _); reflexivity.
  - unfold user_message. apply lookup_insert_eq.
  - unfold user_message. rewrite lookup_insert_ne by discriminate.
    apply lookup_singleton_eq.
  - unfold user_message. rewrite dom_insert_L, dom_singleton_L. reflexivity.
Qed.

End Call.



(** ** The prompt builders *)

Section Builders.

Ltac in_parts :=
  unfold type1_fstring, type2_fstring; simpl;
  repeat (first [left; reflexivity | right]).

Ltac has_field := apply fstring_field; in_parts.
Ltac has_literal := apply literals_contain_spec; vm_compute; reflexivity.
Ltac has_iliteral := apply literals_icontain_spec; vm_compute; reflexivity.

(** C1, as stated, fails on the form's default values: the prompt does not
    hold the listed name "data-type issues", neither verbatim nor up to
    letter case (the template's bullet reads "Data type issues"). *)
Lemma type1_prompt_lacks_listed_name :
  ~ type1_prompt_as_listed Str.contains
      "src_customer_dim" "dim_customer" "customer_id" "name,status,type" "" /\
  ~ type1_prompt_as_listed Str.icontains
      "src_customer_dim" "dim_customer" "customer_id" "name,status,type" "".
Proof.
  split; intros [s [Hs [_ [_ [_ [_ Hall]]]]]];
    (assert (s = fstring (type1_fstring "src_customer_dim" "dim_customer"
                            "customer_id" "name,status,type" "")) as ->
       by (eapply pure_returns_inj; [exact Hs | intros w; reflexivity]));
    rewrite List.Forall_forall in Hall;
    specialize (Hall "data-type issues");
    apply StrFacts.containsb_spec in Hall;
    try (vm_compute in Hall; discriminate Hall);
    unfold TYPE1_LISTED; simpl; repeat (first [left; reflexivity | right]).
Qed.

(** C1, amended.  For every input the Type 1 builder returns a prompt that
    holds the source table, the target table, the business keys and the
    attribute columns verbatim, and one bullet line for each of the seven
    scenario categories, worded Initial load, Incremental load, Updates,
    No-change rows, Duplicate keys, Nulls, Data type issues.  Six of the
    listed names are thereby in the prompt up to letter case; the seventh
    is there as "Data type issues". *)
Theorem type1_prompt_contents
    (source_table target_table business_keys attribute_columns
     additional_rules : string) :
  exists s,
    pure_returns (build_scd_type1_prompt source_table target_table
                    business_keys attribute_columns additional_rules) s /\
    Str.contains source_table s /\ Str.contains target_table s /\
    Str.contains business_keys s /\ Str.contains attribute_columns s /\
    Forall (fun name => Str.contains (bullet name) s) TYPE1_BULLETS /\
    Forall (fun name => Str.icontains name s)
      ["initial load"; "incremental load"; "updates"; "no-change rows";
       "duplicate keys"; "nulls"].
Proof.
  eexists. split; [intros w; reflexivity |].
  repeat split; try has_field.
  - unfold TYPE1_BULLETS. repeat constructor; has_literal.
  - repeat constructor; has_iliteral.
Qed.

(** C2, as stated, fails on the form's default values: the prompt does not
    hold the listed name "overlapping date ranges", neither verbatim nor
    up to letter case (the template's bullet reads "Overlapping ranges"). *)
Lemma type2_prompt_lacks_listed_name :
  ~ type2_prompt_as_listed Str.contains
      "src_customer_dim" "dim_customer" "customer_id" "name,status,type"
      "eff_from_dt" "eff_to_dt" "is_current" "version_num" "" /\
  ~ type2_prompt_as_listed Str.icontains
      "src_customer_dim" "dim_customer" "customer_id" "name,status,type"
      "eff_from_dt" "eff_to_dt" "is_current" "version_num" "".
Proof.
  split; intros [s [Hs [_ [_ [_ [_ [_ [_ [_ [_ Hall]]]]]]]]]];
    (assert (s = fstring (type2_fstring "src_customer_dim" "dim_customer"
                            "customer_id" "name,status,type" "eff_from_dt"
                            "eff_to_dt" "is_current" "version_num" "")) as ->
       by (eapply pure_returns_inj; [exact Hs | intros w; reflexivity]));
    rewrite List.Forall_forall in Hall;
    specialize (Hall "overlapping date ranges");
    apply StrFacts.containsb_spec in Hall;
    try (vm_compute in Hall; discriminate Hall);
    unfold TYPE2_LISTED; simpl; repeat (first [left; reflexivity | right]).
Qed.

(** C2, amended.  For every input the Type 2 builder returns a prompt that
    holds the source table, the target table, the business keys, the
    attribute columns and the four metadata column names (effective-from,
    effective-to, current-flag, version) verbatim, and one bullet line for
    each of the nine scenario categories, worded Initial load, First
    insert, Attribute change -> close old + open new, Multiple historical
    changes, Late-arriving data, Overlapping ranges, Current flag issues,
    Duplicate keys, Invalid effective dates.  Five of the listed names are
    thereby in the prompt up to letter case. *)
Theorem type2_prompt_contents
    (source_table target_table business_keys attribute_columns
     eff_from_col eff_to_col current_flag_col version_col
     additional_rules : string) :
  exists s,
    pure_returns (build_scd_type2_prompt source_table target_table
                    business_keys attribute_columns eff_from_col eff_to_col
                    current_flag_col version_col additional_rules) s /\
    Str.contains source_table s /\ Str.contains target_table s /\
    Str.contains business_keys s /\ Str.contains attribute_columns s /\
    Str.contains eff_from_col s /\ Str.contains eff_to_col s /\
    Str.contains current_flag_col s /\ Str.contains version_col s /\
    Forall (fun name => Str.contains (bullet name) s) TYPE2_BULLETS /\
    Forall (fun name => Str.icontains name s)
      ["initial load"; "first insert"; "multiple historical changes";
       "late-arriving data"; "duplicate keys"].
Proof.
  eexists. split; [intros w; reflexivity |].
  repeat split; try has_field.
  - unfold TYPE2_BULLETS. repeat constructor; has_literal.
  - repeat constructor; has_iliteral.
Qed.

(** C3.  For every input the Type 1 prompt holds the literal range 10–15,
    in the request to generate 10–15 test cases, and the Type 2 prompt
    holds the literal range 12–18, in the request to generate 12–18
    cases. *)
Theorem prompts_state_case_ranges :
  (forall source_table target_table business_keys attribute_columns
          additional_rules,
     exists s,
       pure_returns (build_scd_type1_prompt source_table target_table
                       business_keys attribute_columns additional_rules) s /\
       Str.contains "10–15" s /\
       Str.contains "Generate 10–15 test cases" s) /\
  (forall source_table target_table business_keys attribute_columns
          eff_from_col eff_to_col current_flag_col version_col
          additional_rules,
     exists s,
       pure_returns (build_scd_type2_prompt source_table target_table
                       business_keys attribute_columns eff_from_col
                       eff_to_col current_flag_col version_col
                       additional_rules) s /\
       Str.contains "12–18" s /\
       Str.contains "Generate 12–18 cases" s).
Proof.
  split; intros; eexists; (split; [intros w; reflexivity |]);
    split; has_literal.
Qed.

(** C4.  Both builders are deterministic and free of side effects: for
    every input there is one string that a call returns from every world,
    leaving the world as it was; so two calls in a row return the same
    string twice and change nothing. *)
Theorem builders_deterministic :
  (forall source_table target_table business_keys attribute_columns
          additional_rules,
     let call := build_scd_type1_prompt source_table target_table
                   business_keys attribute_columns additional_rules in
     exists s,
       pure_returns call s /\
       pure_returns (first <- call ;; second <- call ;; ret (first, second))
         (s, s)) /\
  (forall source_table target_table business_keys attribute_columns
          eff_from_col eff_to_col current_flag_col version_col
          additional_rules,
     let call := build_scd_type2_prompt source_table target_table
                   business_keys attribute_columns eff_from_col eff_to_col
                   current_flag_col version_col additional_rules in
     exists s,
       pure_returns call s /\
       pure_returns (first <- call ;; second <- call ;; ret (first, second))
         (s, s)).
Proof.
  split; intros; eexists; split; intros w; reflexivity.
Qed.

(** C5.  Every prompt of either builder holds the role statement
    "senior Data QA Engineer" and ends in the markdown header row, a line
    of its own, whose cells are exactly the six headers Test Case ID,
    Scenario, Preconditions, Input Data Setup, Steps, Expected Result. *)
Theorem prompts_role_and_table_header :
  Str.row_cells TABLE_HEADER =
    ["Test Case ID"; "Scenario"; "Preconditions"; "Input Data Setup";
     "Steps"; "Expected Result"] /\
  (forall source_table target_table business_keys attribute_columns
          additional_rules,
     exists s,
       pure_returns (build_scd_type1_prompt source_table target_table
                       business_keys attribute_columns additional_rules) s /\
       Str.contains "senior Data QA Engineer" s /\
       Str.endswith (nl +:+ TABLE_HEADER +:+ nl) s) /\
  (forall source_table target_table business_keys attribute_columns
          eff_from_col eff_to_col current_flag_col version_col
          additional_rules,
     exists s,
       pure_returns (build_scd_type2_prompt source_table target_table
                       business_keys attribute_columns eff_from_col
                       eff_to_col current_flag_col version_col
                       additional_rules) s /\
       Str.contains "senior Data QA Engineer" s /\
       Str.endswith (nl +:+ TABLE_HEADER +:+ nl) s).
Proof.
  split; [vm_compute; reflexivity |].
  split; intros; eexists; (split; [intros w; reflexivity |]);
    (split; [has_literal |]);
    apply last_literal_endswith_spec; vm_compute; reflexivity.
Qed.

(** C9.  Both builders are total, and put every field into the prompt as
    it is: there are fixed literal chunks, the same for all inputs, such
    that for all field values, empty ones included, the builder returns
    the chunks with the fields between them, nothing checked, escaped or
    cut. *)
Theorem builders_total_verbatim :
  (exists l0 l1 l2 l3 l4 l5 : string,
     forall source_table target_table business_keys attribute_columns
            additional_rules,
       pure_returns (build_scd_type1_prompt source_table target_table
                       business_keys attribute_columns additional_rules)
         (l0 +:+ source_table +:+ l1 +:+ target_table +:+ l2 +:+
          business_keys +:+ l3 +:+ attribute_columns +:+ l4 +:+
          additional_rules +:+ l5)) /\
  (exists l0 l1 l2 l3 l4 l5 l6 l7 l8 l9 : string,
     forall source_table target_table business_keys attribute_columns
            eff_from_col eff_to_col current_flag_col version_col
            additional_rules,
       pure_returns (build_scd_type2_prompt source_table target_table
                       business_keys attribute_columns eff_from_col
                       eff_to_col current_flag_col version_col
                       additional_rules)
         (l0 +:+ source_table +:+ l1 +:+ target_table +:+ l2 +:+
          business_keys +:+ l3 +:+ attribute_columns +:+ l4 +:+
          eff_from_col +:+ l5 +:+ eff_to_col +:+ l6 +:+
          current_flag_col +:+ l7 +:+ version_col +:+ l8 +:+
          additional_rules +:+ l9)).
Proof.
  split.
  - do 6 eexists. intros st tt bk ac ar w.
    unfold build_scd_type1_prompt, ret, type1_fstring, fstring, part_text.
    rewrite StrFacts.app_nil_r. reflexivity.
  - do 10 eexists. intros st tt bk ac ef et cf vc ar w.
    unfold build_scd_type2_prompt, ret, type2_fstring, fstring, part_text.
    rewrite StrFacts.app_nil_r. reflexivity.
Qed.

End Builders.

(** ** The page *)

(** [run_app], step by step: the form, then nothing more than the footer
    unless the button was clicked; else the spinner and the call with the
    prompt of the form; then the banner, the code block and the footer, or
    what the [except] clause makes of an exception of the call or of
    [st.code]. *)
Lemma run_app_unfold (ui : Session) (dbx : Databricks) (w : World) :
  run_app ui dbx w =
  if bool_decide (GENERATE ∈ clicked ui) then
    match call_databricks_llm dbx (form_prompt ui)
            {| page := page w ++ form_elements ui ++ [Spinner "Calling Databricks LLM…"];
               sent := sent w |} with
    | (Return result, w2) =>
        match undrawable dbx (Code result "markdown") with
        | None =>
            (Return tt,
             {| page := page w2 ++ [Success "Generated!"; Code result "markdown"; FOOTER];
                sent := sent w2 |})
        | Some e =>
            caught dbx e {| page := page w2 ++ [Success "Generated!"]; sent := sent w2 |}
        end
    | (Raise e, w2) => caught dbx e w2
    end
  else
    (Return tt, {| page := page w ++ form_elements ui ++ [FOOTER]; sent := sent w |}).
Proof.
  unfold run_app, form_elements, form_prompt, caught, FOOTER, GENERATE.
  unfold st_title, st_caption, st_header, st_radio, st_info, st_subheader,
    st_columns, st_text_input, st_text_area, st_markdown, st_button,
    st_spinner, st_success, st_code, st_error, draw,
    build_scd_type1_prompt, build_scd_type2_prompt,
    try_except_Exception, bind, ret, render.
  cbn [page sent fst snd].
  generalize (radio_value ui "Select SCD Type" ["SCD Type 1"; "SCD Type 2"]).
  intros scd_type.
  destruct (String.eqb scd_type "SCD Type 2");
    case_bool_decide;
    destruct (String.eqb scd_type "SCD Type 1");
    cbn [page sent fst snd];
    rewrite <- ?List.app_assoc; cbn [List.app];
    try reflexivity;
    (destruct (call_databricks_llm dbx _ _) as [[result | e] w2];
     [ destruct (undrawable dbx (Code result "markdown")) as [e|] |];
     try destruct (exc_is_Exception e);
     try destruct (undrawable dbx (Error _));
     cbn [page sent]; rewrite <- ?List.app_assoc; reflexivity).
Qed.

Lemma form_elements_no_result (ui : Session) :
  Forall (fun el => is_result el = false) (form_elements ui).
Proof.
  unfold form_elements.
  destruct (String.eqb _ _); simpl; repeat constructor.
Qed.

(** C7, as stated, fails: the call raises [KeyboardInterrupt] in the
    generate branch, [except Exception] does not match it, and the
    exception leaves [run_app]; no error is displayed. *)
Lemma run_app_lets_interrupt_through :
  (forall w, fst (call_databricks_llm dbx_interrupted (form_prompt ui_clicked) w)
             = Raise KeyboardInterrupt) /\
  fst (run_app ui_clicked dbx_interrupted empty_world) = Raise KeyboardInterrupt /\
  Forall (fun el => is_error el = false)
    (page (snd (run_app ui_clicked dbx_interrupted empty_world))).
Proof.
  split; [| split].
  - intros w. rewrite call_databricks_llm_unfold. reflexivity.
  - vm_compute. reflexivity.
  - vm_compute. repeat constructor.
Qed.

(** C7, amended.  If the button was clicked and [call_databricks_llm]
    raises an exception whose class derives from [Exception], [run_app]
    catches it and hands [st.error] the message "Error: " followed by the
    exception's description; if that display draws, [run_app] returns
    normally, and what it has put on the page holds the error display,
    whose message contains the description, and no success result. *)
Theorem run_app_shows_caught_error
    (ui : Session) (dbx : Databricks) (w : World) (e : PyExc) :
  GENERATE ∈ clicked ui ->
  (forall w', fst (call_databricks_llm dbx (form_prompt ui) w') = Raise e) ->
  exc_is_Exception e = true ->
  undrawable dbx (Error (fstring [Lit "Error: "; Repl (exc_str e)])) = None ->
  exists (w' : World) (shown : list Element),
    run_app ui dbx w = (Return tt, w') /\
    page w' = (page w ++ shown)%list /\
    (exists message, In (Error message) shown /\ Str.contains (exc_str e) message) /\
    Forall (fun el => is_result el = false) shown.
Proof.
  intros Hclick Hraise Hexc Hdraws.
  rewrite run_app_unfold, (bool_decide_eq_true_2 _ Hclick).
  match goal with
  | |- context [call_databricks_llm dbx ?p ?w1] =>
      pose proof (Hraise w1) as Hout;
      pose proof (call_databricks_llm_page dbx p w1) as Hpage;
      destruct (call_databricks_llm dbx p w1) as [out w2]
  end.
  cbn [fst snd page] in Hout, Hpage. subst out.
  unfold caught. rewrite Hexc, Hdraws.
  eexists. eexists. split; [reflexivity |]. split; [| split].
  - cbn [page]. rewrite Hpage. rewrite <- !List.app_assoc. reflexivity.
  - exists (fstring [Lit "Error: "; Repl (exc_str e)]). split.
    + apply in_or_app. right. right. left. reflexivity.
    + apply fstring_field. right. left. reflexivity.
  - apply Forall_app. split; [apply form_elements_no_result |].
    repeat constructor.
Qed.

Lemma run_app_shows_caught_error_witness :
  exists (w' : World) (shown : list Element),
    run_app ui_clicked dbx_down empty_world = (Return tt, w') /\
    page w' = (page empty_world ++ shown)%list /\
    (exists message, In (Error message) shown /\
                     Str.contains (exc_str connection_refused) message) /\
    Forall (fun el => is_result el = false) shown.
Proof.
  apply (run_app_shows_caught_error ui_clicked dbx_down empty_world
           connection_refused).
  - unfold ui_clicked, clicked. apply elem_of_singleton. reflexivity.
  - intros w'. rewrite call_databricks_llm_unfold. reflexivity.
  - reflexivity.
  - reflexivity.
Defined.

(** ** The Type 1 flow and the SCD2 fields *)

Section Type1Flow.

(** Two sessions that agree on every widget but the four SCD2 fields. *)
Variables (ui1 ui2 : Session).

Hypothesis agree :
  forall label, label ∉ SCD2_LABELS -> entered ui1 !! label = entered ui2 !! label.

Ltac not_scd2_label :=
  let H := fresh in
  intros H; unfold SCD2_LABELS in H;
  repeat (apply elem_of_cons in H as [H | H]; [discriminate H |]);
  apply elem_of_nil in H; exact H.

Lemma text_value_agree (label value : string) :
  label ∉ SCD2_LABELS ->
  text_value ui1 label value = text_value ui2 label value.
Proof. intros Hl. unfold text_value. now rewrite (agree label Hl). Qed.

Lemma radio_value_agree (label : string) (options : list string) :
  label ∉ SCD2_LABELS ->
  radio_value ui1 label options = radio_value ui2 label options.
Proof. intros Hl. unfold radio_value. now rewrite (agree label Hl). Qed.

(** C10.  With SCD Type 1 selected, two sessions that differ only in the
    values of the four SCD2 metadata fields (effective-from, effective-to,
    current-flag, version) give the same prompt, and the whole run of
    [run_app] is the same: the same page, the same request sent. *)
Theorem type1_flow_ignores_scd2_fields (dbx : Databricks) (w : World) :
  radio_value ui1 "Select SCD Type" ["SCD Type 1"; "SCD Type 2"] = "SCD Type 1" ->
  clicked ui1 = clicked ui2 ->
  form_prompt ui1 = form_prompt ui2 /\
  run_app ui1 dbx w = run_app ui2 dbx w.
Proof.
  intros Htype Hclicked.
  assert (radio_value ui2 "Select SCD Type" ["SCD Type 1"; "SCD Type 2"]
          = "SCD Type 1") as Htype2.
  { rewrite <- radio_value_agree by not_scd2_label. exact Htype. }
  assert (form_prompt ui1 = form_prompt ui2) as Hprompt.
  { unfold form_prompt. rewrite Htype, Htype2. cbn [String.eqb Ascii.eqb Bool.eqb].
    rewrite !text_value_agree by not_scd2_label.
    reflexivity. }
  split; [exact Hprompt |].
  rewrite !run_app_unfold, Hprompt, Hclicked.
  unfold form_elements. rewrite Htype, Htype2. reflexivity.
Qed.

End Type1Flow.

Lemma type1_flow_ignores_scd2_fields_witness :
  form_prompt ui_type1_a = form_prompt ui_type1_b /\
  run_app ui_type1_a dbx_plain empty_world = run_app ui_type1_b dbx_plain empty_world.
Proof.
  apply (type1_flow_ignores_scd2_fields ui_type1_a ui_type1_b).
  - intros label Hlabel. unfold ui_type1_a, ui_type1_b, entered.
    assert (label <> "Effective From") as Hfrom.
    { intros ->. apply Hlabel. unfold SCD2_LABELS. apply list_elem_of_here. }
    assert (label <> "Version Column") as Hversion.
    { intros ->. apply Hlabel. unfold SCD2_LABELS.
      do 3 apply list_elem_of_further. apply list_elem_of_here. }
    rewrite lookup_singleton_ne by congruence.
    rewrite lookup_insert_ne by congruence.
    rewrite lookup_singleton_ne by congruence.
    reflexivity.
  - vm_compute. reflexivity.
  - reflexivity.
Defined.

(** * Part IV: further properties of the call and of the page *)

(** ** The call *)

(** X1.  When the response has an [output_text] that reads without an
    exception, [call_databricks_llm] returns exactly that text, not
    [str(response)], having sent its one request and left the page alone. *)
Theorem call_returns_text_verbatim
    (dbx : Databricks) (prompt : string) (w : World)
    (response : Response) (text : string) :
  client_error dbx = None ->
  endpoint dbx MODEL_ENDPOINT_NAME [user_message prompt] = Return response ->
  resp_attrs response !! "output_text" = Some (Return text) ->
  call_databricks_llm dbx prompt w =
    (Return text,
     {| page := page w; sent := sent w ++ [query_request prompt] |}).
Proof.
  intros Hclient Hquery Hattr.
  rewrite call_databricks_llm_unfold, Hclient. cbv zeta.
  now rewrite Hquery, Hattr.
Qed.

Lemma call_returns_text_verbatim_witness :
  call_databricks_llm dbx_chat "prompt" empty_world =
    (Return "| TC01 | Initial load |",
     {| page := page empty_world;
        sent := sent empty_world ++ [query_request "prompt"] |}).
Proof.
  apply (call_returns_text_verbatim dbx_chat "prompt" empty_world chat_response).
  - reflexivity.
  - reflexivity.
  - unfold chat_response, resp_attrs. apply lookup_singleton_eq.
Defined.

(** X2.  An exception [e] leaves [call_databricks_llm] if and only if
    [WorkspaceClient()] raised [e], or the client was built and the query
    raised [e], or the query answered, [output_text] could not be read and
    [str(response)] raised [e].  The bare [except] wraps the attribute read
    only: no error of the client or of the query is swallowed, and the
    exception of the attribute read itself never leaves the call. *)
Theorem call_raises_exactly_when
    (dbx : Databricks) (prompt : string) (w : World) (e : PyExc) :
  fst (call_databricks_llm dbx prompt w) = Raise e <->
  client_error dbx = Some e \/
  (client_error dbx = None /\
   endpoint dbx MODEL_ENDPOINT_NAME [user_message prompt] = Raise e) \/
  (client_error dbx = None /\
   exists response,
     endpoint dbx MODEL_ENDPOINT_NAME [user_message prompt] = Return response /\
     (forall text, resp_attrs response !! "output_text" <> Some (Return text)) /\
     resp_str response = Raise e).
Proof.
  rewrite call_databricks_llm_unfold.
  destruct (client_error dbx) as [e0|]; cbn [fst].
  - split.
    + intros H. left. now inversion H.
    + intros [H | [[H _] | [H _]]]; [now inversion H | discriminate ..].
  - cbv zeta.
    destruct (endpoint dbx _ _) as [response | e0]; cbn [fst].
    + split.
      * intros H. right. right. split; [reflexivity |].
        exists response. split; [reflexivity |].
        destruct (resp_attrs response !! "output_text") as [[text | e1] |];
          [discriminate H | split; [intros text; discriminate | exact H] ..].
      * intros [H | [[_ H] | [_ [response' [Hresp [Hattr Hstr]]]]]];
          [discriminate H | discriminate H |].
        injection Hresp as <-.
        destruct (resp_attrs response !! "output_text") as [[text | e1] |];
          [exfalso; exact (Hattr text eq_refl) | exact Hstr ..].
    + split.
      * intros H. right. left. split; [reflexivity | now inversion H].
      * intros [H | [[_ H] | [_ [response [H _]]]]];
          [discriminate H | now inversion H | discriminate H].
Qed.

(** ** The prompt builders *)

(** X3.  Every prompt of either builder opens with the role statement:
    no field value comes before it. *)
Theorem prompts_open_with_role :
  (forall source_table target_table business_keys attribute_columns
          additional_rules,
     exists rest,
       pure_returns (build_scd_type1_prompt source_table target_table
                       business_keys attribute_columns additional_rules)
         (ROLE_OPENING +:+ rest)) /\
  (forall source_table target_table business_keys attribute_columns
          eff_from_col eff_to_col current_flag_col version_col
          additional_rules,
     exists rest,
       pure_returns (build_scd_type2_prompt source_table target_table
                       business_keys attribute_columns eff_from_col
                       eff_to_col current_flag_col version_col
                       additional_rules)
         (ROLE_OPENING +:+ rest)).
Proof.
  split; intros.
  - assert (Str.startswith ROLE_OPENING
              (fstring (type1_fstring source_table target_table business_keys
                          attribute_columns additional_rules)) = true) as H
      by (vm_compute; reflexivity).
    apply StrFacts.startswith_spec in H as [rest H]. exists rest.
    intros w. unfold build_scd_type1_prompt, ret. now rewrite H.
  - assert (Str.startswith ROLE_OPENING
              (fstring (type2_fstring source_table target_table business_keys
                          attribute_columns eff_from_col eff_to_col
                          current_flag_col version_col additional_rules)) = true)
      as H by (vm_compute; reflexivity).
    apply StrFacts.startswith_spec in H as [rest H]. exists rest.
    intros w. unfold build_scd_type2_prompt, ret. now rewrite H.
Qed.

(** X4.  A Type 1 prompt is never a Type 2 prompt, whatever the field
    values: the templates part ways in their fixed opening text, before
    the first field. *)
Theorem prompts_of_variants_differ
    (source_table target_table business_keys attribute_columns
     additional_rules : string)
    (source_table' target_table' business_keys' attribute_columns'
     eff_from_col eff_to_col current_flag_col version_col
     additional_rules' : string) (w w' : World) :
  fst (build_scd_type1_prompt source_table target_table business_keys
         attribute_columns additional_rules w) <>
  fst (build_scd_type2_prompt source_table' target_table' business_keys'
         attribute_columns' eff_from_col eff_to_col current_flag_col
         version_col additional_rules' w').
Proof.
  unfold build_scd_type1_prompt, build_scd_type2_prompt, ret. cbn [fst].
  intros H.
  apply (f_equal (fun o : Outcome string =>
                    match o with
                    | Return s =>
                        Str.startswith
                          (ROLE_OPENING +:+ nl +:+
                           "Generate detailed QA test cases to validate a ") s
                    | Raise _ => false
                    end)) in H.
  vm_compute in H. discriminate H.
Qed.

(** X5.  Field values are not escaped, so a field boundary can be forged:
    a source table that goes on with a line break, "Target table: " and
    more text gives the same Type 1 prompt as handing that further text
    to the target table field instead, though the inputs differ. *)
Theorem type1_prompt_boundary_forged
    (s t u business_keys attribute_columns additional_rules : string)
    (w : World) :
  s +:+ TARGET_TABLE_LABEL +:+ t <> s /\
  build_scd_type1_prompt (s +:+ TARGET_TABLE_LABEL +:+ t) u
    business_keys attribute_columns additional_rules w =
  build_scd_type1_prompt s (t +:+ TARGET_TABLE_LABEL +:+ u)
    business_keys attribute_columns additional_rules w.
Proof.
  split.
  - intros H. rewrite <- (StrFacts.app_nil_r s) in H at 2.
    apply String.app_inj in H. discriminate H.
  - unfold build_scd_type1_prompt, ret, type1_fstring, fstring, part_text.
    f_equal. f_equal. rewrite !StrFacts.app_assoc. reflexivity.
Qed.

(** ** The page *)

Lemma form_elements_quiet (ui : Session) :
  Forall (fun el => is_spinner el = false /\ is_result el = false /\
                    is_error el = false)
    (form_elements ui).
Proof.
  unfold form_elements.
  destruct (String.eqb _ _); simpl; repeat constructor.
Qed.

Lemma form_elements_no_footer (ui : Session) : ~ In FOOTER (form_elements ui).
Proof.
  unfold form_elements, FOOTER, GENERATE.
  destruct (String.eqb _ _); simpl; intros H;
    repeat (destruct H as [H | H]; [discriminate H |]); exact H.
Qed.

Lemma caught_sent (dbx : Databricks) (e : PyExc) (w : World) :
  sent (snd (caught dbx e w)) = sent w.
Proof.
  unfold caught. destruct (exc_is_Exception e); [| reflexivity].
  destruct (undrawable dbx _); reflexivity.
Qed.

Lemma caught_page (dbx : Databricks) (e : PyExc) (w : World) :
  exists tail,
    page (snd (caught dbx e w)) = (page w ++ tail)%list /\
    Forall (fun el => is_widget el = false) tail.
Proof.
  unfold caught. destruct (exc_is_Exception e).
  - destruct (undrawable dbx _).
    + exists []. cbn [snd]. now rewrite List.app_nil_r.
    + eexists. cbn [snd page]. split; [reflexivity | repeat constructor].
  - exists []. cbn [snd]. now rewrite List.app_nil_r.
Qed.

(** What [run_app] adds to the page: the form, then elements that are
    no widgets. *)
Lemma run_app_page (ui : Session) (dbx : Databricks) (w : World) :
  exists tail,
    page (snd (run_app ui dbx w)) = (page w ++ form_elements ui ++ tail)%list /\
    Forall (fun el => is_widget el = false) tail.
Proof.
  rewrite run_app_unfold. case_bool_decide.
  - match goal with
    | |- context [call_databricks_llm dbx ?p ?w1] =>
        pose proof (call_databricks_llm_page dbx p w1) as Hpage;
        destruct (call_databricks_llm dbx p w1) as [[result | e] w2]
    end; cbn [snd page] in Hpage.
    + destruct (undrawable dbx (Code result "markdown")) as [e|].
      * match goal with
        | |- context [caught dbx e ?w3] =>
            destruct (caught_page dbx e w3) as [tail [Htail Hquiet]]
        end.
        cbn [page] in Htail. rewrite Htail, Hpage.
        exists ([Spinner "Calling Databricks LLM…"; Success "Generated!"] ++ tail)%list.
        split; [rewrite <- !List.app_assoc; reflexivity |].
        apply Forall_app. split; [repeat constructor | exact Hquiet].
      * cbn [snd page]. rewrite Hpage, <- !List.app_assoc.
        eexists. split; [reflexivity | repeat constructor].
    + destruct (caught_page dbx e w2) as [tail [Htail Hquiet]].
      rewrite Htail, Hpage.
      exists ([Spinner "Calling Databricks LLM…"] ++ tail)%list.
      split; [rewrite <- !List.app_assoc; reflexivity |].
      apply Forall_app. split; [repeat constructor | exact Hquiet].
  - eexists. split; [reflexivity | repeat constructor].
Qed.

(** X6.  Without a click on the button [run_app] only draws the form and
    the footer and returns: it sends nothing to the endpoint, whatever the
    state of the workspace, and shows no spinner, result or error. *)
Theorem run_app_idle (ui : Session) (dbx : Databricks) (w : World) :
  GENERATE ∉ clicked ui ->
  exists shown,
    run_app ui dbx w =
      (Return tt, {| page := page w ++ shown; sent := sent w |}) /\
    Forall (fun el => is_spinner el = false /\ is_result el = false /\
                      is_error el = false) shown.
Proof.
  intros Hidle.
  rewrite run_app_unfold, (bool_decide_eq_false_2 _ Hidle).
  eexists. split; [reflexivity |].
  apply Forall_app. split; [apply form_elements_quiet | repeat constructor].
Qed.

Lemma run_app_idle_witness :
  exists shown,
    run_app ui_idle dbx_down empty_world =
      (Return tt, {| page := page empty_world ++ shown;
                     sent := sent empty_world |}) /\
    Forall (fun el => is_spinner el = false /\ is_result el = false /\
                      is_error el = false) shown.
Proof.
  apply (run_app_idle ui_idle dbx_down empty_world).
  unfold ui_idle, clicked. apply not_elem_of_empty.
Defined.

(** X7.  After a click, if the client is built, the endpoint answers the
    form's prompt and the call returns a result out of the response
    ([output_text] if it reads, else what [str(response)] returns), and
    the code block for that result draws, then [run_app] returns normally:
    exactly one request is sent, the page ends with the banner, the code
    block holding the result and the footer, and no error is shown. *)
Theorem run_app_shows_result
    (ui : Session) (dbx : Databricks) (w : World)
    (response : Response) (result : string) :
  GENERATE ∈ clicked ui ->
  client_error dbx = None ->
  endpoint dbx MODEL_ENDPOINT_NAME [user_message (form_prompt ui)] = Return response ->
  match resp_attrs response !! "output_text" with
  | Some (Return text) => Return text
  | _ => resp_str response
  end = Return result ->
  undrawable dbx (Code result "markdown") = None ->
  exists shown,
    run_app ui dbx w =
      (Return tt,
       {| page := page w ++ shown;
          sent := sent w ++ [query_request (form_prompt ui)] |}) /\
    (exists before,
       shown = (before ++ [Success "Generated!"; Code result "markdown"; FOOTER])%list) /\
    Forall (fun el => is_error el = false) shown.
Proof.
  intros Hclick Hclient Hquery Hresult Hdraws.
  rewrite run_app_unfold, (bool_decide_eq_true_2 _ Hclick).
  rewrite call_databricks_llm_unfold, Hclient. cbv zeta.
  rewrite Hquery, Hresult, Hdraws.
  exists (form_elements ui ++
          [Spinner "Calling Databricks LLM…"; Success "Generated!";
           Code result "markdown"; FOOTER])%list.
  split; [| split].
  - cbn [page sent]. rewrite <- !List.app_assoc. reflexivity.
  - exists (form_elements ui ++ [Spinner "Calling Databricks LLM…"])%list.
    rewrite <- List.app_assoc. reflexivity.
  - apply Forall_app. split; [| repeat constructor].
    eapply Forall_impl; [apply form_elements_quiet |].
    intros el [_ [_ H]]. exact H.
Qed.

Lemma run_app_shows_result_witness :
  exists shown,
    run_app ui_clicked dbx_plain empty_world =
      (Return tt,
       {| page := page empty_world ++ shown;
          sent := sent empty_world ++ [query_request (form_prompt ui_clicked)] |}) /\
    (exists before,
       shown = (before ++
                [Success "Generated!";
                 Code "QueryEndpointResponse(choices=None, predictions=None)" "markdown";
                 FOOTER])%list) /\
    Forall (fun el => is_error el = false) shown.
Proof.
  apply (run_app_shows_result ui_clicked dbx_plain empty_world plain_response).
  - unfold ui_clicked, clicked. apply elem_of_singleton. reflexivity.
  - reflexivity.
  - reflexivity.
  - reflexivity.
  - reflexivity.
Defined.

(** X8.  If the call raises an exception whose class does not derive from
    [Exception], [run_app] raises that very exception: after the form and
    the spinner nothing more is drawn, neither a result nor an error nor
    the footer. *)
Theorem run_app_propagates_non_Exception
    (ui : Session) (dbx : Databricks) (w : World) (e : PyExc) :
  GENERATE ∈ clicked ui ->
  (forall w', fst (call_databricks_llm dbx (form_prompt ui) w') = Raise e) ->
  exc_is_Exception e = false ->
  exists (w' : World) (shown : list Element),
    run_app ui dbx w = (Raise e, w') /\
    page w' = (page w ++ shown)%list /\
    Forall (fun el => is_result el = false /\ is_error el = false) shown /\
    ~ In FOOTER shown.
Proof.
  intros Hclick Hraise Hexc.
  rewrite run_app_unfold, (bool_decide_eq_true_2 _ Hclick).
  match goal with
  | |- context [call_databricks_llm dbx ?p ?w1] =>
      pose proof (Hraise w1) as Hout;
      pose proof (call_databricks_llm_page dbx p w1) as Hpage;
      destruct (call_databricks_llm dbx p w1) as [out w2]
  end.
  cbn [fst snd page] in Hout, Hpage. subst out. unfold caught. rewrite Hexc.
  eexists. eexists. split; [reflexivity |]. split; [exact Hpage |]. split.
  - apply Forall_app. split; [| repeat constructor].
    eapply Forall_impl; [apply form_elements_quiet |].
    intros el [_ H]. exact H.
  - intros H. apply in_app_or in H as [H | H].
    + exact (form_elements_no_footer ui H).
    + destruct H as [H | []]. discriminate H.
Qed.

Lemma run_app_propagates_non_Exception_witness :
  exists (w' : World) (shown : list Element),
    run_app ui_clicked dbx_interrupted empty_world = (Raise KeyboardInterrupt, w') /\
    page w' = (page empty_world ++ shown)%list /\
    Forall (fun el => is_result el = false /\ is_error el = false) shown /\
    ~ In FOOTER shown.
Proof.
  apply (run_app_propagates_non_Exception ui_clicked dbx_interrupted
           empty_world KeyboardInterrupt).
  - unfold ui_clicked, clicked. apply elem_of_singleton. reflexivity.
  - intros w'. rewrite call_databricks_llm_unfold. reflexivity.
  - reflexivity.
Defined.

(** X9.  Whatever the session and the platform, [run_app] either returns
    with the footer as the last thing on the page, or raises after a
    click; and what it raises is an exception whose class does not derive
    from [Exception], or the exception [st.error] itself raised in the
    handler: no other [Exception] ever leaves it. *)
Theorem run_app_outcome (ui : Session) (dbx : Databricks) (w : World) :
  match fst (run_app ui dbx w) with
  | Return _ =>
      exists before, page (snd (run_app ui dbx w)) = (before ++ [FOOTER])%list
  | Raise e =>
      GENERATE ∈ clicked ui /\
      (exc_is_Exception e = false \/
       exists message, undrawable dbx (Error message) = Some e)
  end.
Proof.
  assert (forall e0 w0,
            match fst (caught dbx e0 w0) with
            | Return _ =>
                exists before, page (snd (caught dbx e0 w0)) = (before ++ [FOOTER])%list
            | Raise e =>
                exc_is_Exception e = false \/
                exists message, undrawable dbx (Error message) = Some e
            end) as Hcaught.
  { intros e0 w0. unfold caught.
    destruct (exc_is_Exception e0) eqn:Hexc.
    - destruct (undrawable dbx _) as [e'|] eqn:Hdraw; cbn [fst snd page].
      + right. eexists. exact Hdraw.
      + exists (page w0 ++ [Error (fstring [Lit "Error: "; Repl (exc_str e0)])])%list.
        rewrite <- List.app_assoc. reflexivity.
    - cbn [fst]. left. exact Hexc. }
  rewrite run_app_unfold. case_bool_decide as Hclick.
  - destruct (call_databricks_llm dbx _ _) as [[result | e] w2].
    + destruct (undrawable dbx (Code result "markdown")) as [e|].
      * match goal with
        | |- context [caught dbx e ?w3] => specialize (Hcaught e w3)
        end.
        destruct (fst (caught dbx e _)); [exact Hcaught | split; assumption].
      * cbn [fst snd page].
        exists (page w2 ++ [Success "Generated!"; Code result "markdown"])%list.
        rewrite <- List.app_assoc. reflexivity.
    + specialize (Hcaught e w2).
      destruct (fst (caught dbx e w2)); [exact Hcaught | split; assumption].
  - cbn [fst snd page]. exists (page w ++ form_elements ui)%list.
    rewrite <- List.app_assoc. reflexivity.
Qed.

(** What one run sends. *)
Lemma run_app_sent (ui : Session) (dbx : Databricks) (w : World) :
  sent (snd (run_app ui dbx w)) =
    (sent w ++
     if bool_decide (GENERATE ∈ clicked ui) then
       match client_error dbx with
       | None => [query_request (form_prompt ui)]
       | Some _ => []
       end
     else [])%list.
Proof.
  rewrite run_app_unfold.
  case_bool_decide; [| cbn [snd sent]; now rewrite List.app_nil_r].
  match goal with
  | |- context [call_databricks_llm dbx ?p ?w1] =>
      assert (sent (snd (call_databricks_llm dbx p w1)) =
              (sent w ++ match client_error dbx with
                         | None => [query_request p]
                         | Some _ => []
                         end)%list) as Hsent
        by (rewrite call_databricks_llm_unfold;
            destruct (client_error dbx);
            [cbn [snd sent]; now rewrite List.app_nil_r |];
            cbv zeta; destruct (endpoint dbx _ _); reflexivity);
      destruct (call_databricks_llm dbx p w1) as [[result | e] w2]
  end; cbn [snd] in Hsent.
  - destruct (undrawable dbx (Code result "markdown")).
    + now rewrite caught_sent.
    + exact Hsent.
  - now rewrite caught_sent.
Qed.

(** X10.  One run of [run_app] sends at most one request, and sends it
    exactly when the button was clicked and the client was built; its one
    message holds a prompt that one of the two builders returns. *)
Theorem run_app_sends_at_most_one (ui : Session) (dbx : Databricks) (w : World) :
  exists prompt : string,
    ((exists source_table target_table business_keys attribute_columns
             additional_rules,
        pure_returns (build_scd_type1_prompt source_table target_table
                        business_keys attribute_columns additional_rules)
          prompt) \/
     (exists source_table target_table business_keys attribute_columns
             eff_from_col eff_to_col current_flag_col version_col
             additional_rules,
        pure_returns (build_scd_type2_prompt source_table target_table
                        business_keys attribute_columns eff_from_col
                        eff_to_col current_flag_col version_col
                        additional_rules) prompt)) /\
    sent (snd (run_app ui dbx w)) =
      (sent w ++
       if bool_decide (GENERATE ∈ clicked ui) then
         match client_error dbx with
         | None => [ {| req_name := "deepseek-scd-qa";
                        req_inputs := [ {[ "role" := "user";
                                           "content" := prompt ]} ] |} ]
         | Some _ => []
         end
       else [])%list.
Proof.
  exists (form_prompt ui). split.
  - unfold form_prompt.
    destruct (String.eqb _ "SCD Type 2");
      destruct (String.eqb _ "SCD Type 1");
      [left | right | left | right];
      repeat eexists; intros w0; reflexivity.
  - rewrite run_app_sent. case_bool_decide; [| now rewrite List.app_nil_r].
    destruct (client_error dbx); [now rewrite List.app_nil_r | reflexivity].
Qed.

Lemma form_elements_scd2_field (ui : Session) (label : string) :
  In label SCD2_LABELS ->
  (exists value, In (TextInput label value) (form_elements ui)) <->
  radio_value ui "Select SCD Type" ["SCD Type 1"; "SCD Type 2"] = "SCD Type 2".
Proof.
  intros Hlabel. unfold SCD2_LABELS in Hlabel. simpl in Hlabel.
  destruct Hlabel as [<- | [<- | [<- | [<- | []]]]];
    (split;
     [ intros [value H]; unfold form_elements in H;
       destruct (String.eqb_spec
                   (radio_value ui "Select SCD Type" ["SCD Type 1"; "SCD Type 2"])
                   "SCD Type 2") as [Heq | Hne]; [exact Heq |];
       exfalso; simpl in H;
       repeat (destruct H as [H | H]; [discriminate H |]); exact H
     | intros Heq; eexists; unfold form_elements; rewrite Heq; simpl;
       repeat (first [left; reflexivity | right]) ]).
Qed.

(** X11.  The four SCD2 metadata fields are on the page exactly when SCD
    Type 2 is selected: in what one run of [run_app] draws, each of
    Effective From, Effective To, Current Flag and Version Column has a
    text input if and only if the radio gives "SCD Type 2". *)
Theorem run_app_scd2_fields_shown (ui : Session) (dbx : Databricks) (w : World) :
  exists shown,
    page (snd (run_app ui dbx w)) = (page w ++ shown)%list /\
    Forall (fun label =>
              (exists value, In (TextInput label value) shown) <->
              radio_value ui "Select SCD Type" ["SCD Type 1"; "SCD Type 2"]
                = "SCD Type 2")
      SCD2_LABELS.
Proof.
  destruct (run_app_page ui dbx w) as [tail [Hpage Htail]].
  exists (form_elements ui ++ tail)%list. split; [exact Hpage |].
  apply List.Forall_forall. intros label Hlabel.
  rewrite <- (form_elements_scd2_field ui label Hlabel).
  split; intros [value H]; exists value.
  - apply in_app_or in H as [H | H]; [exact H |].
    rewrite List.Forall_forall in Htail. specialize (Htail _ H).
    discriminate Htail.
  - apply in_or_app. left. exact H.
Qed.

(** X12.  Whenever the Type 1 test of the generate branch fails, the SCD2
    fields were read: with the radio not at "SCD Type 1", a click sends
    the Type 2 prompt built from the values of all nine widgets, the four
    metadata fields included (their defaults when left alone), never from
    the empty strings the four variables start with. *)
Theorem run_app_type2_prompt (ui : Session) (dbx : Databricks) (w : World) :
  radio_value ui "Select SCD Type" ["SCD Type 1"; "SCD Type 2"] <> "SCD Type 1" ->
  GENERATE ∈ clicked ui ->
  client_error dbx = None ->
  sent (snd (run_app ui dbx w)) =
    (sent w ++
     [query_request
        (fstring
           (type2_fstring
              (text_value ui "Source Table" "src_customer_dim")
              (text_value ui "Target Table" "dim_customer")
              (text_value ui "Business Keys (comma separated)" "customer_id")
              (text_value ui "Tracked / Overwritten Columns" "name,status,type")
              (text_value ui "Effective From" "eff_from_dt")
              (text_value ui "Effective To" "eff_to_dt")
              (text_value ui "Current Flag" "is_current")
              (text_value ui "Version Column" "version_num")
              (text_value ui "Additional Rules (optional)" "")))])%list.
Proof.
  intros Hnot1 Hclick Hclient.
  assert (radio_value ui "Select SCD Type" ["SCD Type 1"; "SCD Type 2"]
          = "SCD Type 2") as Htype.
  { pose proof (radio_value_in ui "Select SCD Type" "SCD Type 1" ["SCD Type 2"]) as Hin.
    apply elem_of_cons in Hin as [Hin | Hin]; [contradiction |].
    apply elem_of_cons in Hin as [Hin | Hin]; [exact Hin |].
    now apply elem_of_nil in Hin. }
  rewrite run_app_sent, (bool_decide_eq_true_2 _ Hclick), Hclient.
  assert (form_prompt ui =
          fstring
            (type2_fstring
               (text_value ui "Source Table" "src_customer_dim")
               (text_value ui "Target Table" "dim_customer")
               (text_value ui "Business Keys (comma separated)" "customer_id")
               (text_value ui "Tracked / Overwritten Columns" "name,status,type")
               (text_value ui "Effective From" "eff_from_dt")
               (text_value ui "Effective To" "eff_to_dt")
               (text_value ui "Current Flag" "is_current")
               (text_value ui "Version Column" "version_num")
               (text_value ui "Additional Rules (optional)" ""))) as Hprompt.
  { unfold form_prompt.
    generalize dependent (radio_value ui "Select SCD Type" ["SCD Type 1"; "SCD Type 2"]).
    intros scd_type _ ->. reflexivity. }
  rewrite Hprompt. reflexivity.
Qed.

Lemma run_app_type2_prompt_witness :
  sent (snd (run_app ui_type2 dbx_plain empty_world)) =
    (sent empty_world ++
     [query_request
        (fstring
           (type2_fstring
              (text_value ui_type2 "Source Table" "src_customer_dim")
              (text_value ui_type2 "Target Table" "dim_customer")
              (text_value ui_type2 "Business Keys (comma separated)" "customer_id")
              (text_value ui_type2 "Tracked / Overwritten Columns" "name,status,type")
              (text_value ui_type2 "Effective From" "eff_from_dt")
              (text_value ui_type2 "Effective To" "eff_to_dt")
              (text_value ui_type2 "Current Flag" "is_current")
              (text_value ui_type2 "Version Column" "version_num")
              (text_value ui_type2 "Additional Rules (optional)" "")))])%list.
Proof.
  apply (run_app_type2_prompt ui_type2 dbx_plain empty_world).
  - vm_compute. discriminate.
  - unfold ui_type2, clicked. apply elem_of_singleton. reflexivity.
  - reflexivity.
Defined.

(** X13.  If the call returns a result but [st.code] raises an exception
    deriving from [Exception] for it, the banner is already on the page:
    [run_app] catches the exception and, if the error display draws,
    returns normally with the banner "Generated!" directly followed by
    the error and the footer, and without a code block. *)
Theorem run_app_code_block_refused
    (ui : Session) (dbx : Databricks) (w : World) (result : string) (e : PyExc) :
  GENERATE ∈ clicked ui ->
  (forall w', fst (call_databricks_llm dbx (form_prompt ui) w') = Return result) ->
  undrawable dbx (Code result "markdown") = Some e ->
  exc_is_Exception e = true ->
  undrawable dbx (Error (fstring [Lit "Error: "; Repl (exc_str e)])) = None ->
  exists (w' : World) (before : list Element),
    run_app ui dbx w = (Return tt, w') /\
    page w' = (page w ++ before ++
               [Success "Generated!";
                Error (fstring [Lit "Error: "; Repl (exc_str e)]);
                FOOTER])%list /\
    Forall (fun el => is_result el = false /\ is_error el = false) before.
Proof.
  intros Hclick Hreturns Hrefused Hexc Hdraws.
  rewrite run_app_unfold, (bool_decide_eq_true_2 _ Hclick).
  match goal with
  | |- context [call_databricks_llm dbx ?p ?w1] =>
      pose proof (Hreturns w1) as Hout;
      pose proof (call_databricks_llm_page dbx p w1) as Hpage;
      destruct (call_databricks_llm dbx p w1) as [out w2]
  end.
  cbn [fst snd page] in Hout, Hpage. subst out.
  rewrite Hrefused. unfold caught. rewrite Hexc, Hdraws.
  exists {| page := (page w2 ++ [Success "Generated!"]) ++
                    [Error (fstring [Lit "Error: "; Repl (exc_str e)]); FOOTER];
            sent := sent w2 |}.
  exists (form_elements ui ++ [Spinner "Calling Databricks LLM…"])%list.
  split; [reflexivity |]. split.
  - cbn [page]. rewrite Hpage, <- !List.app_assoc. reflexivity.
  - apply Forall_app. split; [| repeat constructor].
    eapply Forall_impl; [apply form_elements_quiet |].
    intros el [_ H]. exact H.
Qed.

Lemma run_app_code_block_refused_witness :
  exists (w' : World) (before : list Element),
    run_app ui_clicked dbx_code_refused empty_world = (Return tt, w') /\
    page w' = (page empty_world ++ before ++
               [Success "Generated!";
                Error (fstring [Lit "Error: "; Repl (exc_str unicode_encode_error)]);
                FOOTER])%list /\
    Forall (fun el => is_result el = false /\ is_error el = false) before.
Proof.
  apply (run_app_code_block_refused ui_clicked dbx_code_refused empty_world
           "| TC01 | Initial load |" unicode_encode_error).
  - unfold ui_clicked, clicked. apply elem_of_singleton. reflexivity.
  - intros w'. rewrite call_databricks_llm_unfold. reflexivity.
  - reflexivity.
  - reflexivity.
  - reflexivity.
Defined.

(** X14.  The handler is not guarded: if the call raises an exception
    deriving from [Exception] and [st.error] raises for its message, the
    exception of [st.error] leaves [run_app], and what was drawn holds
    neither an error nor a result nor the footer. *)
Theorem run_app_error_display_refused
    (ui : Session) (dbx : Databricks) (w : World) (e e' : PyExc) :
  GENERATE ∈ clicked ui ->
  (forall w', fst (call_databricks_llm dbx (form_prompt ui) w') = Raise e) ->
  exc_is_Exception e = true ->
  undrawable dbx (Error (fstring [Lit "Error: "; Repl (exc_str e)])) = Some e' ->
  exists (w' : World) (shown : list Element),
    run_app ui dbx w = (Raise e', w') /\
    page w' = (page w ++ shown)%list /\
    Forall (fun el => is_result el = false /\ is_error el = false) shown /\
    ~ In FOOTER shown.
Proof.
  intros Hclick Hraise Hexc Hrefused.
  rewrite run_app_unfold, (bool_decide_eq_true_2 _ Hclick).
  match goal with
  | |- context [call_databricks_llm dbx ?p ?w1] =>
      pose proof (Hraise w1) as Hout;
      pose proof (call_databricks_llm_page dbx p w1) as Hpage;
      destruct (call_databricks_llm dbx p w1) as [out w2]
  end.
  cbn [fst snd page] in Hout, Hpage. subst out.
  unfold caught. rewrite Hexc, Hrefused.
  eexists. eexists. split; [reflexivity |]. split; [exact Hpage |]. split.
  - apply Forall_app. split; [| repeat constructor].
    eapply Forall_impl; [apply form_elements_quiet |].
    intros el [_ H]. exact H.
  - intros H. apply in_app_or in H as [H | H].
    + exact (form_elements_no_footer ui H).
    + destruct H as [H | []]. discriminate H.
Qed.

Lemma run_app_error_display_refused_witness :
  exists (w' : World) (shown : list Element),
    run_app ui_clicked dbx_error_refused empty_world
      = (Raise unicode_encode_error, w') /\
    page w' = (page empty_world ++ shown)%list /\
    Forall (fun el => is_result el = false /\ is_error el = false) shown /\
    ~ In FOOTER shown.
Proof.
  apply (run_app_error_display_refused ui_clicked dbx_error_refused
           empty_world connection_refused unicode_encode_error).
  - unfold ui_clicked, clicked. apply elem_of_singleton. reflexivity.
  - intros w'. rewrite call_databricks_llm_unfold. reflexivity.
  - reflexivity.
  - reflexivity.
Defined.
